(** * app.py: an HTTP gateway over a document collection

    The module app.py sets out to build a Flask application with two
    views, [index] (route "/") and [data] (route "/data", methods GET and
    POST), over one pymongo collection.  This development embeds

    - the top-level statements of the module, executed in order against
      the module namespace (name resolution included);
    - the two view functions, written in a state-and-exception monad over
      the process' view of the world (clock, collection), and what the
      framework answers when it runs a view;
    - the arguments the client of the collection is built with.

    The JSON decoder of the framework is a parameter of the development,
    and so is the verdict of the driver and the server on a write; a
    small decoder and a sample store are provided to run the model on
    concrete requests. *)

From Stdlib Require Import List String Ascii Bool Arith ZArith NArith Lia.
From Stdlib Require Import Permutation.
Import ListNotations.

Local Open Scope string_scope.
Local Open Scope list_scope.

Set Warnings "-register-all".

(** ** Python values exchanged as JSON *)

(** What [json.loads] builds and [jsonify] serialises: None, bool, int,
    float, str, list and dict.  A float is carried by its binary64 bit
    pattern; no arithmetic is done on it.  A dict keeps its insertion
    order, as Python dicts and BSON documents do. *)
Inductive json : Type :=
| JNull : json
| JBool (b : bool) : json
| JInt (n : Z) : json
| JFloat (bits : N) : json
| JStr (s : string) : json
| JArr (items : list json) : json
| JObj (fields : list (string * json)) : json.

Definition dict := list (string * json).

(** [d.get(k)]: the value bound to [k], if any. *)
Fixpoint dict_get (k : string) (d : dict) : option json :=
  match d with
  | [] => None
  | (k', v) :: d' => if String.eqb k k' then Some v else dict_get k d'
  end.

(** [d[k] = v]: an existing key keeps its position, a new one goes last. *)
Fixpoint dict_set (k : string) (v : json) (d : dict) : dict :=
  match d with
  | [] => [(k, v)]
  | (k', v') :: d' =>
      if String.eqb k k' then (k, v) :: d' else (k', v') :: dict_set k v d'
  end.

(** The dict without the key [k]. *)
Definition dict_del (k : string) (d : dict) : dict :=
  filter (fun kv => negb (String.eqb k (fst kv))) d.

(** A JSON object, as opposed to any other JSON value. *)
Definition is_object (v : json) : bool :=
  match v with JObj _ => true | _ => false end.

(** ** The clock *)

(** A naive local date and time, as [datetime.now()] returns it. *)
Record datetime : Type := mkDatetime {
  year : N; month : N; day : N;
  hour : N; minute : N; second : N; microsecond : N
}.

(** The ranges the datetime type enforces on its fields. *)
Definition datetime_valid (t : datetime) : Prop :=
  (1 <= year t <= 9999 /\ 1 <= month t <= 12 /\ 1 <= day t <= 31 /\
   hour t < 24 /\ minute t < 60 /\ second t < 60 /\
   microsecond t < 1000000)%N.

Definition digit (d : N) : ascii := ascii_of_N (48 + d).

(** The [w] low decimal digits of [n], most significant first: the
    conversion [%0wd] for every [n] below [10^w]. *)
Fixpoint zero_padded (w : nat) (n : N) : list ascii :=
  match w with
  | 0 => []
  | S w' => zero_padded w' (n / 10)%N ++ [digit (n mod 10)%N]
  end.

(** [str(t)], that is [t.isoformat(sep=' ')] for a naive datetime: the
    microseconds are printed only when they are not zero. *)
Definition datetime_chars (t : datetime) : list ascii :=
  zero_padded 4 (year t) ++ "-"%char ::
  zero_padded 2 (month t) ++ "-"%char ::
  zero_padded 2 (day t) ++ " "%char ::
  zero_padded 2 (hour t) ++ ":"%char ::
  zero_padded 2 (minute t) ++ ":"%char ::
  zero_padded 2 (second t) ++
  (if N.eqb (microsecond t) 0 then []
   else "."%char :: zero_padded 6 (microsecond t)).

Definition str_datetime (t : datetime) : string :=
  string_of_list_ascii (datetime_chars t).

(** ** Exceptions *)

(** The exceptions that can be raised while the module is imported or a
    view is run.  The first four are werkzeug's HTTP exceptions.  The last
    stands for any other exception, by the name of its class: those of
    the driver (DuplicateKeyError, ServerSelectionTimeoutError,
    OverflowError, ...) and of the decoder (RecursionError). *)
Inductive exn : Type :=
| BadRequest
| NotFound
| MethodNotAllowed
| UnsupportedMediaType
| TypeError
| NameError (name : string)
| KeyError
| OtherError (name : string).

(** The status code an HTTP exception carries; other exceptions have none. *)
Definition http_code (e : exn) : option nat :=
  match e with
  | BadRequest => Some 400
  | NotFound => Some 404
  | MethodNotAllowed => Some 405
  | UnsupportedMediaType => Some 415
  | _ => None
  end.

(** ** The world a view runs in *)

(** The identifier of a stored document: generated by the driver
    ([ObjectId()]) or given by the inserted document itself. *)
Inductive ident : Type :=
| ObjectId (n : N)
| GivenId (v : json).

(** A stored document: the [_id] it is stored under, and the dict that was
    inserted (which holds an [_id] field exactly when the identifier was
    given rather than generated). *)
Record document : Type := mkDocument {
  doc_id : ident;
  doc_fields : dict
}.

(** What becomes of a write that is sent to a server that can be reached:
    it is stored and acknowledged; it is refused, by the driver while it
    encodes the document or by the server, and the driver raises; or it
    is stored but the driver raises all the same, the acknowledgement
    being lost. *)
Inductive write_result : Type :=
| Written
| Refused (error : string)
| Lost (error : string).

(** The clock; the collection [flask_db.data] behind the client: whether
    its server can be reached, the documents it holds, and the verdict of
    the driver and the server on the write of a document to a collection
    that holds given documents (their encoding limits, the unique index
    on [_id], ...), which is not this program's to decide; the driver's
    ObjectId counter; and the number of operations the views have issued
    on the collection. *)
Record World : Type := mkWorld {
  clock : datetime;
  reachable : bool;
  documents : list document;
  verdict : list document -> document -> write_result;
  oid_counter : N;
  store_calls : nat
}.

(** ** Computations: state and exceptions *)

(** A computation reads and updates the world and either returns a value
    or raises; what it did to the world before raising stays done. *)
Definition M (A : Type) : Type := World -> (exn + A) * World.

Definition ret {A} (a : A) : M A := fun w => (inr a, w).

Definition raise {A} (e : exn) : M A := fun w => (inl e, w).

Definition bind {A B} (m : M A) (k : A -> M B) : M B :=
  fun w =>
    match m w with
    | (inr a, w') => k a w'
    | (inl e, w') => (inl e, w')
    end.

Declare Scope monad_scope.
Delimit Scope monad_scope with monad.
Notation "x <- m ;; k" := (bind m (fun x => k))
  (at level 61, m at next level, right associativity) : monad_scope.
Notation "m ;; k" := (bind m (fun _ => k))
  (at level 61, right associativity) : monad_scope.

Local Open Scope monad_scope.

(** [datetime.now()]. *)
Definition now : M datetime := fun w => (inr (clock w), w).

(** ** The collection (pymongo) *)

Definition count_call (w : World) : World :=
  mkWorld (clock w) (reachable w) (documents w) (verdict w) (oid_counter w)
          (S (store_calls w)).

Definition next_oid (w : World) : World :=
  mkWorld (clock w) (reachable w) (documents w) (verdict w)
          (N.succ (oid_counter w)) (store_calls w).

Definition store (d : document) (w : World) : World :=
  mkWorld (clock w) (reachable w) (documents w ++ [d]) (verdict w)
          (oid_counter w) (store_calls w).

(** The exception of the driver when no server can be reached. *)
Definition unreachable : exn := OtherError "ServerSelectionTimeoutError".

(** [collection.insert_one(v)].  The argument must be a mapping, else
    TypeError, before anything is sent.  A dict without [_id] is given a
    fresh ObjectId by the driver.  The write then needs the server, and
    what becomes of it there is the verdict of the world.  The result is
    the identifier under which the document was stored. *)
Definition insert_one (v : json) : M ident :=
  fun w0 =>
    let w := count_call w0 in
    match v with
    | JObj d =>
        let '(i, w1) :=
          match dict_get "_id" d with
          | Some given => (GivenId given, w)
          | None => (ObjectId (oid_counter w), next_oid w)
          end in
        if reachable w1 then
          match verdict w1 (documents w1) (mkDocument i d) with
          | Written => (inr i, store (mkDocument i d) w1)
          | Refused error => (inl (OtherError error), w1)
          | Lost error => (inl (OtherError error), store (mkDocument i d) w1)
          end
        else (inl unreachable, w1)
    | _ => (inl TypeError, w)
    end.

(** What the projection [{"_id": 0}] leaves of a stored document. *)
Definition without_id (d : document) : json :=
  JObj (dict_del "_id" (doc_fields d)).

(** [list(collection.find({}, {"_id": 0}))]: every stored document, in the
    collection's order, each without its [_id].  Draining the cursor needs
    the server. *)
Definition find : M (list json) :=
  fun w0 =>
    let w := count_call w0 in
    if reachable w then (inr (map without_id (documents w)), w)
    else (inl unreachable, w).

(** ** Requests and responses (Flask) *)

Record Request : Type := mkRequest {
  method : string;
  path : string;
  mimetype : string;
  get_data : string
}.

Inductive Body : Type :=
| BodyText (s : string)
| BodyJson (v : json)
| BodyEmpty
| BodyError (code : nat).

Record Response : Type := mkResponse {
  status : nat;
  body : Body
}.

(** What a view may return: nothing, a string, or a response paired with
    a status. *)
Inductive rv : Type :=
| RvNone
| RvStr (s : string)
| RvTuple (r : Response) (code : nat).

Fixpoint ends_with (suffix s : string) : bool :=
  String.eqb suffix s ||
  match s with
  | EmptyString => false
  | String _ s' => ends_with suffix s'
  end.

(** [request.is_json]: the mimetype is application/json or
    application/*+json. *)
Definition is_json (r : Request) : bool :=
  String.eqb (mimetype r) "application/json" ||
  (String.prefix "application/" (mimetype r) && ends_with "+json" (mimetype r)).

(** [jsonify(v)]: a response with status 200 whose body is [v] as JSON.
    The body is kept as the value that is serialised, not as its text. *)
Definition jsonify (v : json) : Response := mkResponse 200 (BodyJson v).

(** [make_response(rv)] for the three shapes above. *)
Definition make_response (x : rv) : M Response :=
  match x with
  | RvNone => raise TypeError
  | RvStr s => ret (mkResponse 200 (BodyText s))
  | RvTuple r code => ret (mkResponse code (body r))
  end.

(** The response for an exception that left a view: an HTTP exception is
    its own response, anything else becomes 500. *)
Definition handle_exception (e : exn) : Response :=
  match http_code e with
  | Some code => mkResponse code (BodyError code)
  | None => mkResponse 500 (BodyError 500)
  end.

(** A URL rule: the path, the methods it answers and the endpoint name. *)
Record Rule : Type := mkRule {
  rule : string;
  methods : list string;
  automatic_options : bool;
  endpoint : string
}.

Definition mem (x : string) (l : list string) : bool :=
  existsb (String.eqb x) l.

(** The rule [app.route(path, methods=ms)] adds for the function named
    [name]: the methods default to GET, HEAD comes with GET, and OPTIONS
    is added and answered by the framework unless the route lists it. *)
Definition add_url_rule (path : string) (ms : option (list string))
    (name : string) : Rule :=
  let given := match ms with Some l => l | None => ["GET"] end in
  let with_head :=
    if mem "GET" given && negb (mem "HEAD" given) then given ++ ["HEAD"]
    else given in
  let auto := negb (mem "OPTIONS" given) in
  mkRule path (if auto then with_head ++ ["OPTIONS"] else with_head) auto name.

(** The first rule for the path that answers the method; 405 when rules
    for the path exist but none answers the method; 404 otherwise. *)
Fixpoint match_rule (rules : list Rule) (p m : string) (seen : bool)
    : exn + Rule :=
  match rules with
  | [] => inl (if seen then MethodNotAllowed else NotFound)
  | r :: rest =>
      if String.eqb (rule r) p then
        if mem m (methods r) then inr r else match_rule rest p m true
      else match_rule rest p m seen
  end.

(** ** The module's statements *)

(** A decorator line: [@app.route(path, methods=ms)] on the application
    bound to a name, or [@f()] for a name [f]. *)
Inductive decorator : Type :=
| Route (app : string) (path : string) (ms : option (list string))
| Call (f : string).

(** The names a decorator expression loads when it is evaluated. *)
Definition decorator_loads (d : decorator) : list string :=
  match d with
  | Route app _ _ => [app]
  | Call f => [f]
  end.

Definition view : Type := Request -> M rv.

(** The top-level statements that occur in the file.  An expression is
    represented by the names it loads, in evaluation order. *)
Inductive stmt : Type :=
| ImportFrom (module : string) (names : list string)
| Import (module : string)
| Assign (target : string) (loads : list string)
| FunctionDef (decorators : list decorator) (name : string) (body : view)
| Expr (loads : list string)
| If_name_eq (value : string) (body : list stmt).

(** The module being built: the names bound so far in its namespace, and
    the rules and views its decorators have registered so far on the
    application (the rule the framework adds by itself for static files
    is left out). *)
Record Module : Type := mkModule {
  globals : list string;
  url_map : list Rule;
  view_functions : list (string * view)
}.

(** Names every module starts with, and the built-in functions and
    constants that a name not bound in the module falls back to. *)
Definition module_attributes : list string :=
  ["__name__"; "__doc__"; "__package__"; "__loader__"; "__spec__";
   "__file__"; "__builtins__"].

Definition builtins : list string :=
  ["abs"; "aiter"; "all"; "anext"; "any"; "ascii"; "bin"; "bool";
   "breakpoint"; "bytearray"; "bytes"; "callable"; "chr"; "classmethod";
   "compile"; "complex"; "delattr"; "dict"; "dir"; "divmod"; "enumerate";
   "eval"; "exec"; "filter"; "float"; "format"; "frozenset"; "getattr";
   "globals"; "hasattr"; "hash"; "help"; "hex"; "id"; "input"; "int";
   "isinstance"; "issubclass"; "iter"; "len"; "list"; "locals"; "map";
   "max"; "memoryview"; "min"; "next"; "object"; "oct"; "open"; "ord";
   "pow"; "print"; "property"; "range"; "repr"; "reversed"; "round";
   "set"; "setattr"; "slice"; "sorted"; "staticmethod"; "str"; "sum";
   "super"; "tuple"; "type"; "vars"; "zip"; "__import__";
   "True"; "False"; "None"; "NotImplemented"; "Ellipsis"; "__debug__"].

Definition bound (x : string) (m : Module) : bool :=
  mem x (globals m) || mem x builtins.

Definition bind_name (x : string) (m : Module) : Module :=
  mkModule (x :: globals m) (url_map m) (view_functions m).

(** Loading names in order: the first unbound one raises NameError. *)
Fixpoint load_names (xs : list string) (m : Module) : option exn :=
  match xs with
  | [] => None
  | x :: rest => if bound x m then load_names rest m else Some (NameError x)
  end.

(** What a namespace may be given beside the module attributes: names
    bound to decorator factories, each with the wrapper that its call
    returns, as far as the view function goes. *)
Definition factories : Type := list (string * (view -> view)).

Fixpoint factory_of (g : string) (env : factories) : option (view -> view) :=
  match env with
  | [] => None
  | (g', wrap) :: env' =>
      if String.eqb g g' then Some wrap else factory_of g env'
  end.

(** What [@app.route(p, methods=ms)] does with the function it is given. *)
Definition register (p : string) (ms : option (list string)) (name : string)
    (f : view) (m : Module) : Module :=
  mkModule (globals m) (url_map m ++ [add_url_rule p ms name])
           (view_functions m ++ [(name, f)]).

(** Applying the decorators of a definition to its function, from the
    bottom one to the top one.  A route registers the function as it is
    at that point.  The call [g()] of a decorator factory returns its
    wrapper; of a name bound to anything else it raises TypeError (app.py
    has no such decorator: the one name it calls is bound by nothing). *)
Fixpoint apply_decorators (env : factories) (name : string)
    (decs : list decorator) (f : view) (m : Module) : exn + view * Module :=
  match decs with
  | [] => inr (f, m)
  | d :: below =>
      match apply_decorators env name below f m with
      | inl e => inl e
      | inr (f', m') =>
          match d with
          | Route _ p ms => inr (f', register p ms name f' m')
          | Call g =>
              match factory_of g env with
              | Some wrap => inr (wrap f', m')
              | None => inl TypeError
              end
          end
      end
  end.

(** One statement, run by the module whose [__name__] is [self].  The
    imported packages are taken to be installed, so that an import binds
    its names.  A decorated definition first evaluates its decorator
    expressions from top to bottom, then applies the decorators from
    bottom to top, then binds the name. *)
Fixpoint exec_stmt (self : string) (env : factories) (s : stmt) (m : Module)
    {struct s} : option exn * Module :=
  match s with
  | ImportFrom _ names => (None, fold_left (fun m x => bind_name x m) names m)
  | Import module => (None, bind_name module m)
  | Assign target xs =>
      match load_names xs m with
      | Some e => (Some e, m)
      | None => (None, bind_name target m)
      end
  | FunctionDef decs name f =>
      match load_names (flat_map decorator_loads decs) m with
      | Some e => (Some e, m)
      | None =>
          match apply_decorators env name decs f m with
          | inl e => (Some e, m)
          | inr (_, m') => (None, bind_name name m')
          end
      end
  | Expr xs => (load_names xs m, m)
  | If_name_eq value body =>
      match load_names ["__name__"] m with
      | Some e => (Some e, m)
      | None =>
          if String.eqb self value then
            (fix block (ss : list stmt) (m : Module) : option exn * Module :=
               match ss with
               | [] => (None, m)
               | s' :: rest =>
                   match exec_stmt self env s' m with
                   | (None, m') => block rest m'
                   | failed => failed
                   end
               end) body m
          else (None, m)
      end
  end.

(** The statements of a file in order, stopping at the first exception. *)
Fixpoint exec_block (self : string) (env : factories) (ss : list stmt)
    (m : Module) : option exn * Module :=
  match ss with
  | [] => (None, m)
  | s :: rest =>
      match exec_stmt self env s m with
      | (None, m') => exec_block self env rest m'
      | failed => failed
      end
  end.

(** Importing (or running) a file: its statements run in a namespace that
    holds the module attributes and the names of [extra]. *)
Definition exec_module (self : string) (extra : factories)
    (file : list stmt) : option exn * Module :=
  exec_block self extra file
             (mkModule (map fst extra ++ module_attributes) [] []).

(** The names a statement binds in the module namespace. *)
Fixpoint binds (s : stmt) : list string :=
  match s with
  | ImportFrom _ names => names
  | Import module => [module]
  | Assign target _ => [target]
  | FunctionDef _ name _ => [name]
  | Expr _ => []
  | If_name_eq _ body => flat_map binds body
  end.

(** ** The views of app.py *)

(** What the decoder makes of the data of a request: the value
    [json.loads] builds, the ValueError it raises on data it does not
    accept, or another exception it raises (RecursionError on data nested
    too deep). *)
Inductive decoded : Type :=
| Decoded (v : json)
| Invalid
| Failed (error : string).

Section Gateway.

(** The JSON decoder behind [request.get_json()]. *)
Variable loads : string -> decoded.

(** [request.get_json()], as Werkzeug 2.3 and later have it: a mimetype
    that does not announce JSON is refused with 415; a ValueError of the
    decoder is turned into 400; any other exception of the decoder is
    left to propagate. *)
Definition get_json (request : Request) : M json :=
  if is_json request then
    match loads (get_data request) with
    | Decoded v => ret v
    | Invalid => raise BadRequest
    | Failed error => raise (OtherError error)
    end
  else raise UnsupportedMediaType.

(** app.py, lines 14-15. *)
Definition index : M rv :=
  t <- now ;;
  ret (RvStr ("Welcome to the Flask app! The current time is: "
              ++ str_datetime t)).

(** app.py, lines 19-26.  A method other than POST and GET falls off
    the end of the function, which returns None. *)
Definition data (request : Request) : M rv :=
  if String.eqb (method request) "POST" then
    data <- get_json request ;;
    insert_one data ;;
    ret (RvTuple (jsonify (JObj [("status", JStr "Data inserted")])) 201)
  else if String.eqb (method request) "GET" then
    data <- find ;;
    ret (RvTuple (jsonify (JArr data)) 200)
  else ret RvNone.

(** app.py, top to bottom. *)
Definition app_py : list stmt :=
  [ ImportFrom "flask" ["Flask"; "request"; "jsonify"];
    ImportFrom "pymongo" ["MongoClient"];
    ImportFrom "datetime" ["datetime"];
    Import "os";
    Assign "app" ["Flask"; "__name__"];
    Assign "mongodb_uri" ["os"];
    Assign "client" ["MongoClient"; "mongodb_uri"; "os"; "os"];
    Assign "db" ["client"];
    Assign "collection" ["db"];
    FunctionDef [Route "app" "/" None; Call "cross_origin"]
                "index" (fun _ => index);
    FunctionDef [Route "app" "/data" (Some ["GET"; "POST"]);
                 Call "cross_origin"]
                "data" data;
    If_name_eq "__main__" [Expr ["app"]] ].

(** ** Serving a request *)

Fixpoint view_of (name : string) (vs : list (string * view)) : option view :=
  match vs with
  | [] => None
  | (n, f) :: rest => if String.eqb n name then Some f else view_of name rest
  end.

(** Routing, the automatic answer to OPTIONS, the call of the view and
    the conversion of what it returns. *)
Definition full_dispatch_request (app : Module) (request : Request)
    : M Response :=
  match match_rule (url_map app) (path request) (method request) false with
  | inl e => raise e
  | inr r =>
      if automatic_options r && String.eqb (method request) "OPTIONS"
      then ret (mkResponse 200 BodyEmpty)
      else
        match view_of (endpoint r) (view_functions app) with
        | Some f => x <- f request ;; make_response x
        | None => raise KeyError
        end
  end.

(** The response as it is sent: to a HEAD request without its body. *)
Definition sent (request : Request) (response : Response) : Response :=
  if String.eqb (method request) "HEAD"
  then mkResponse (status response) BodyEmpty
  else response.

(** One request through the application: an exception on the way
    becomes the error response. *)
Definition wsgi_app (app : Module) (request : Request) (w : World)
    : Response * World :=
  match full_dispatch_request app request w with
  | (inr response, w') => (sent request response, w')
  | (inl e, w') => (sent request (handle_exception e), w')
  end.

(** What a process that imports the file can serve: nothing when the
    import raised, the application's answer otherwise. *)
Definition serve (imported : option exn * Module) (request : Request)
    (w : World) : option (Response * World) :=
  match imported with
  | (Some _, _) => None
  | (None, app) => Some (wsgi_app app request w)
  end.

End Gateway.

(** ** Running a view *)

(** The response the framework builds when it runs a view for a request:
    what the view returns, made into a response, or the error response of
    the exception it raises.  What is sent of it is [sent]. *)
Definition call_view (f : view) (request : Request) (w : World)
    : Response * World :=
  match bind (f request) make_response w with
  | (inr response, w') => (response, w')
  | (inl e, w') => (handle_exception e, w')
  end.


(** What [data] answers to a POST that went through. *)
Definition inserted : Response :=
  mkResponse 201 (BodyJson (JObj [("status", JStr "Data inserted")])).

(** [posts loads r d]: the request is a POST that announces JSON and whose
    data the decoder [loads] decodes to the object [d]. *)
Definition posts (loads : string -> decoded) (r : Request) (d : dict) : Prop :=
  method r = "POST" /\ is_json r = true
  /\ loads (get_data r) = Decoded (JObj d).


(** ** A decoder to run the model with *)

(** A decoder for JSON texts written without fractions, exponents and
    string escapes, on which it builds the value [json.loads] builds: a
    repeated key keeps its first position and its last value, and the
    literals NaN, Infinity and -Infinity are accepted as floats, as
    [json.loads] accepts them.  Any other text is reported as invalid. *)
Module SimpleJson.

(** The binary64 patterns of nan, inf and -inf. *)
Definition nan : N := 9221120237041090560.
Definition inf : N := 9218868437227405312.
Definition minus_inf : N := 18442240474082181120.

Definition dquote : ascii := "034"%char.

Definition is_space (c : ascii) : bool :=
  match nat_of_ascii c with
  | 32 | 9 | 10 | 13 => true
  | _ => false
  end.

Fixpoint skip_ws (s : list ascii) : list ascii :=
  match s with
  | c :: s' => if is_space c then skip_ws s' else s
  | [] => []
  end.

Definition digit_value (c : ascii) : option Z :=
  let n := nat_of_ascii c in
  if ((48 <=? n) && (n <=? 57))%nat then Some (Z.of_nat (n - 48)) else None.

(** The digits at the head of [s], accumulated into [acc]. *)
Fixpoint read_digits (s : list ascii) (acc : Z) : Z * list ascii :=
  match s with
  | c :: s' =>
      match digit_value c with
      | Some d => read_digits s' (10 * acc + d)
      | None => (acc, s)
      end
  | [] => (acc, [])
  end.

(** An integer literal without its sign: a single 0, or digits that do
    not start with 0; a fraction or an exponent after it is refused. *)
Definition read_nat (s : list ascii) : option (Z * list ascii) :=
  match s with
  | c :: s' =>
      match digit_value c with
      | None => None
      | Some d =>
          let '(n, rest) := if Z.eqb d 0 then (0%Z, s') else read_digits s' d in
          match rest with
          | c' :: _ =>
              match digit_value c' with
              | Some _ => None
              | None =>
                  if Ascii.eqb c' "."%char || Ascii.eqb c' "e"%char
                     || Ascii.eqb c' "E"%char
                  then None else Some (n, rest)
              end
          | [] => Some (n, rest)
          end
      end
  | [] => None
  end.

(** The characters up to the closing quote; a backslash or a control
    character is refused. *)
Fixpoint read_string (s : list ascii) : option (string * list ascii) :=
  match s with
  | [] => None
  | c :: s' =>
      if Ascii.eqb c dquote then Some (EmptyString, s')
      else if Ascii.eqb c "\"%char || (nat_of_ascii c <? 32)%nat then None
      else match read_string s' with
           | Some (str, rest) => Some (String c str, rest)
           | None => None
           end
  end.

Fixpoint read_value (fuel : nat) (s : list ascii) {struct fuel}
    : option (json * list ascii) :=
  match fuel with
  | 0 => None
  | S fuel' =>
      match skip_ws s with
      | "n"%char :: "u"%char :: "l"%char :: "l"%char :: rest =>
          Some (JNull, rest)
      | "t"%char :: "r"%char :: "u"%char :: "e"%char :: rest =>
          Some (JBool true, rest)
      | "f"%char :: "a"%char :: "l"%char :: "s"%char :: "e"%char :: rest =>
          Some (JBool false, rest)
      | "["%char :: rest =>
          match skip_ws rest with
          | "]"%char :: rest' => Some (JArr [], rest')
          | _ =>
              match read_items fuel' rest [] with
              | Some (items, rest') => Some (JArr items, rest')
              | None => None
              end
          end
      | "{"%char :: rest =>
          match skip_ws rest with
          | "}"%char :: rest' => Some (JObj [], rest')
          | _ =>
              match read_members fuel' rest [] with
              | Some (fields, rest') => Some (JObj fields, rest')
              | None => None
              end
          end
      | "N"%char :: "a"%char :: "N"%char :: rest => Some (JFloat nan, rest)
      | "I"%char :: "n"%char :: "f"%char :: "i"%char :: "n"%char :: "i"%char
        :: "t"%char :: "y"%char :: rest => Some (JFloat inf, rest)
      | "-"%char :: "I"%char :: "n"%char :: "f"%char :: "i"%char :: "n"%char
        :: "i"%char :: "t"%char :: "y"%char :: rest =>
          Some (JFloat minus_inf, rest)
      | "-"%char :: rest =>
          match read_nat rest with
          | Some (n, rest') => Some (JInt (- n), rest')
          | None => None
          end
      | c :: rest =>
          if Ascii.eqb c dquote then
            match read_string rest with
            | Some (str, rest') => Some (JStr str, rest')
            | None => None
            end
          else
            match read_nat (c :: rest) with
            | Some (n, rest') => Some (JInt n, rest')
            | None => None
            end
      | [] => None
      end
  end

with read_items (fuel : nat) (s : list ascii) (acc : list json)
    {struct fuel} : option (list json * list ascii) :=
  match fuel with
  | 0 => None
  | S fuel' =>
      match read_value fuel' s with
      | Some (v, rest) =>
          match skip_ws rest with
          | ","%char :: rest' => read_items fuel' rest' (acc ++ [v])
          | "]"%char :: rest' => Some (acc ++ [v], rest')
          | _ => None
          end
      | None => None
      end
  end

with read_members (fuel : nat) (s : list ascii) (acc : dict)
    {struct fuel} : option (dict * list ascii) :=
  match fuel with
  | 0 => None
  | S fuel' =>
      match skip_ws s with
      | c :: rest =>
          if Ascii.eqb c dquote then
            match read_string rest with
            | Some (k, rest1) =>
                match skip_ws rest1 with
                | ":"%char :: rest2 =>
                    match read_value fuel' rest2 with
                    | Some (v, rest3) =>
                        match skip_ws rest3 with
                        | ","%char :: rest4 =>
                            read_members fuel' rest4 (dict_set k v acc)
                        | "}"%char :: rest4 => Some (dict_set k v acc, rest4)
                        | _ => None
                        end
                    | None => None
                    end
                | _ => None
                end
            | None => None
            end
          else None
      | [] => None
      end
  end.

Definition loads (text : string) : decoded :=
  let s := list_ascii_of_string text in
  match read_value (2 * List.length s + 2)%nat s with
  | Some (v, rest) =>
      match skip_ws rest with
      | [] => Decoded v
      | _ => Invalid
      end
  | None => Invalid
  end.

(** [q s] is [s] between double quotes. *)
Definition q (s : string) : string :=
  String dquote (s ++ String dquote EmptyString).

End SimpleJson.

(** ** Sample worlds and requests *)

Module Sample.

Import SimpleJson.

Definition noon : datetime := mkDatetime 2024 3 9 12 0 0 0.

Definition later : datetime := mkDatetime 2024 3 9 12 0 0 250000.

(** The unique index on [_id], for identifiers that are integers: the
    write of a document whose [_id] is an integer that a stored document
    has is refused with DuplicateKeyError.  This sample store accepts
    every other write. *)
Definition unique_int_ids (docs : list document) (d : document)
    : write_result :=
  match doc_id d with
  | GivenId (JInt n) =>
      if existsb (fun x => match doc_id x with
                           | GivenId (JInt m) => Z.eqb m n
                           | _ => false
                           end) docs
      then Refused "DuplicateKeyError"
      else Written
  | _ => Written
  end.

(** An empty collection on a server that can be reached. *)
Definition empty_world : World := mkWorld noon true [] unique_int_ids 0 0.

(** The same collection while its server cannot be reached. *)
Definition down_world : World := mkWorld noon false [] unique_int_ids 0 0.

Definition get (p : string) : Request :=
  mkRequest "GET" p EmptyString EmptyString.

(** A POST to "/data" that carries no body and no content type. *)
Definition post_nothing : Request :=
  mkRequest "POST" "/data" EmptyString EmptyString.

Definition post_json (text : string) : Request :=
  mkRequest "POST" "/data" "application/json" text.

(** {"name":"a","value":1} *)
Definition name_a_text : string :=
  "{" ++ q "name" ++ ":" ++ q "a" ++ "," ++ q "value" ++ ":1}".

Definition name_a : dict := [("name", JStr "a"); ("value", JInt 1)].

(** {"_id":1,"name":"a"} and {"_id":1,"name":"b"} *)
Definition with_id_text (name : string) : string :=
  "{" ++ q "_id" ++ ":1," ++ q "name" ++ ":" ++ q name ++ "}".

Definition with_id (name : string) : dict :=
  [("_id", JInt 1); ("name", JStr name)].



(** A reachable collection that holds two documents, one stored under a
    generated identifier and one under a given one. *)
Definition stocked_world : World :=
  mkWorld noon true
          [mkDocument (ObjectId 0) name_a;
           mkDocument (GivenId (JInt 1)) (with_id "b")]
          unique_int_ids 1 2.

(** The empty collection a quarter of a second after [noon]. *)
Definition later_world : World := mkWorld later true [] unique_int_ids 0 0.

End Sample.

(** ** The client's configuration *)

(** The process environment, [os.environ]: the first binding of a name is
    the one that counts. *)
Definition environ : Type := list (string * string).

(** [os.environ.get(k)]: None when the variable is not set. *)
Fixpoint environ_get (k : string) (env : environ) : option string :=
  match env with
  | [] => None
  | (k', v) :: env' => if String.eqb k k' then Some v else environ_get k env'
  end.

(** [os.environ.get(k, default)]. *)
Definition environ_get_default (k default : string) (env : environ) : string :=
  match environ_get k env with
  | Some v => v
  | None => default
  end.

(** [os.environ[k] = v] and [del os.environ[k]]. *)
Definition setenv (k v : string) (env : environ) : environ :=
  (k, v) :: filter (fun kv => negb (String.eqb k (fst kv))) env.

Definition unsetenv (k : string) (env : environ) : environ :=
  filter (fun kv => negb (String.eqb k (fst kv))) env.

(** app.py, line 7. *)
Definition mongodb_uri (env : environ) : string :=
  environ_get_default "MONGODB_URI" "mongodb://localhost:27017/" env.

(** The arguments [MongoClient] is built with. *)
Record MongoClient : Type := mkMongoClient {
  host : string;
  username : option string;
  password : option string
}.

(** app.py, line 8. *)
Definition client (env : environ) : MongoClient :=
  mkMongoClient (mongodb_uri env)
                (environ_get "MONGODB_USER" env)
                (environ_get "MONGODB_PASS" env).

(** * Properties *)

(** ** Values and dicts *)




(** ** The printed clock *)

Lemma zero_padded_length (w : nat) (n : N) : List.length (zero_padded w n) = w.
Proof.
  revert n. induction w as [|w IH]; intros n; simpl.
  - reflexivity.
  - rewrite length_app, IH. simpl. lia.
Qed.

Lemma digit_inj (a b : N) : (a < 10)%N -> (b < 10)%N -> digit a = digit b -> a = b.
Proof.
  intros Ha Hb H. unfold digit in H.
  apply (f_equal N_of_ascii) in H.
  rewrite !N_ascii_embedding in H by lia. lia.
Qed.

Lemma app_inv_length {A} (a a' b b' : list A) :
  List.length a = List.length a' -> a ++ b = a' ++ b' -> a = a' /\ b = b'.
Proof.
  revert a'. induction a as [|x a IH]; intros [|x' a'] Hlen H; simpl in *;
    try discriminate.
  - now split.
  - injection H as -> H. destruct (IH a') as [-> ->]; [lia | exact H | now split].
Qed.

Lemma zero_padded_inj (w : nat) (n m : N) :
  (n < 10 ^ N.of_nat w)%N -> (m < 10 ^ N.of_nat w)%N ->
  zero_padded w n = zero_padded w m -> n = m.
Proof.
  revert n m. induction w as [|w IH]; intros n m Hn Hm H.
  - simpl in Hn, Hm. lia.
  - rewrite Nat2N.inj_succ, N.pow_succ_r' in Hn, Hm.
    simpl in H.
    apply app_inv_length in H; [|now rewrite !zero_padded_length].
    destruct H as [Hhigh Hlow].
    injection Hlow as Hlow.
    apply digit_inj in Hlow; [| apply N.mod_lt; lia | apply N.mod_lt; lia].
    apply IH in Hhigh;
      [| apply N.Div0.div_lt_upper_bound; lia
       | apply N.Div0.div_lt_upper_bound; lia].
    rewrite (N.div_mod n 10), (N.div_mod m 10) by lia.
    now rewrite Hhigh, Hlow.
Qed.

Lemma cons_eq_tail {A} (x y : A) (a b : list A) : x :: a = y :: b -> a = b.
Proof. intros H. now injection H. Qed.

(** Peels one fixed-width field off both sides of an equation between
    printed clocks. *)
Ltac peel_field H Hfield :=
  apply app_inv_length in H; [| now rewrite !zero_padded_length];
  destruct H as [Hfield H];
  apply zero_padded_inj in Hfield;
  [| simpl; lia | simpl; lia].

Lemma datetime_chars_inj (t u : datetime) :
  datetime_valid t -> datetime_valid u ->
  datetime_chars t = datetime_chars u -> t = u.
Proof.
  intros (Hy & Hmo & Hd & Hh & Hmi & Hs & Hus)
         (Hy' & Hmo' & Hd' & Hh' & Hmi' & Hs' & Hus') H.
  destruct t as [y mo d h mi s us], u as [y' mo' d' h' mi' s' us'].
  unfold datetime_chars in H. simpl year in *. simpl month in *.
  simpl day in *. simpl hour in *. simpl minute in *. simpl second in *.
  simpl microsecond in *.
  peel_field H Ey. apply cons_eq_tail in H.
  peel_field H Emo. apply cons_eq_tail in H.
  peel_field H Ed. apply cons_eq_tail in H.
  peel_field H Eh. apply cons_eq_tail in H.
  peel_field H Emi. apply cons_eq_tail in H.
  peel_field H Es.
  assert (us = us') as Eus.
  { destruct (N.eqb_spec us 0) as [Z|NZ], (N.eqb_spec us' 0) as [Z'|NZ'];
      try discriminate H.
    - congruence.
    - apply cons_eq_tail in H. apply zero_padded_inj in H; [exact H | simpl; lia | simpl; lia]. }
  congruence.
Qed.

Lemma string_of_list_ascii_inj (a b : list ascii) :
  string_of_list_ascii a = string_of_list_ascii b -> a = b.
Proof.
  intros H. apply (f_equal list_ascii_of_string) in H.
  now rewrite !list_ascii_of_string_of_list_ascii in H.
Qed.

Lemma str_datetime_inj (t u : datetime) :
  datetime_valid t -> datetime_valid u ->
  str_datetime t = str_datetime u -> t = u.
Proof.
  intros Ht Hu H. apply datetime_chars_inj; trivial.
  now apply string_of_list_ascii_inj.
Qed.

Lemma append_inv_head (p a b : string) :
  (p ++ a)%string = (p ++ b)%string -> a = b.
Proof.
  induction p as [|c p IH]; simpl; intros H.
  - exact H.
  - injection H as H. now apply IH.
Qed.

Lemma BodyText_inj (a b : string) : BodyText a = BodyText b -> a = b.
Proof. intros H. now injection H. Qed.

Lemma eqb_false_of_neq (a b : string) : a <> b -> String.eqb a b = false.
Proof. intros H. now apply String.eqb_neq. Qed.

(** ** The views, run for a request *)

Arguments str_datetime : simpl never.
Arguments without_id : simpl never.


(** An exception of [insert_one] is never an HTTP exception, and the call
    has been counted. *)
Lemma insert_one_raises (v : json) (w w' : World) (e : exn) :
  insert_one v w = (inl e, w') ->
  http_code e = None /\ store_calls w' = S (store_calls w)
  /\ reachable w' = reachable w.
Proof.
  unfold insert_one. destruct v as [| | | | | |d];
    try (intros H; injection H as <- <-; now repeat split).
  destruct (dict_get "_id" d); simpl;
    destruct (reachable w) eqn:Hup;
    try (intros H; injection H as <- <-; now repeat split);
    match goal with |- context [verdict w ?docs ?doc] =>
      destruct (verdict w docs doc) end;
    intros H; try discriminate H; injection H as <- <-; now repeat split.
Qed.

(** While the store cannot be reached, [insert_one] raises and stores
    nothing. *)
Lemma insert_one_unreachable (v : json) (w : World) :
  reachable w = false ->
  exists e, fst (insert_one v w) = inl e
            /\ documents (snd (insert_one v w)) = documents w.
Proof.
  intros Hdown. unfold insert_one. destruct v as [| | | | | |d];
    try (exists TypeError; now split).
  destruct (dict_get "_id" d); simpl; rewrite Hdown;
    exists unreachable; now split.
Qed.

Lemma insert_one_written (d : dict) (w : World) :
  dict_get "_id" d = None -> reachable w = true ->
  verdict w (documents w) (mkDocument (ObjectId (oid_counter w)) d) = Written ->
  insert_one (JObj d) w
  = (inr (ObjectId (oid_counter w)),
     mkWorld (clock w) true
             (documents w ++ [mkDocument (ObjectId (oid_counter w)) d])
             (verdict w) (N.succ (oid_counter w)) (S (store_calls w))).
Proof.
  intros Hid Hup Hok. unfold insert_one. rewrite Hid. simpl.
  rewrite Hup, Hok. unfold store, next_oid, count_call. simpl.
  now rewrite Hup.
Qed.

(** What a call of [insert_one] can do to the world: it is counted, it
    may store one document after the others, and it may draw an
    identifier. *)
Lemma insert_one_frame (v : json) (w : World) :
  clock (snd (insert_one v w)) = clock w
  /\ reachable (snd (insert_one v w)) = reachable w
  /\ verdict (snd (insert_one v w)) = verdict w
  /\ store_calls (snd (insert_one v w)) = S (store_calls w)
  /\ (documents (snd (insert_one v w)) = documents w
      \/ exists doc, documents (snd (insert_one v w)) = documents w ++ [doc]).
Proof.
  unfold insert_one. destruct v as [| | | | | |d];
    try (simpl; repeat split; now left).
  destruct (dict_get "_id" d); simpl;
    destruct (reachable w) eqn:Hup;
    try (simpl; repeat split; (assumption || now left));
    match goal with |- context [verdict w ?docs ?doc] =>
      destruct (verdict w docs doc) end;
    simpl; repeat split;
      (assumption || (now left) || (right; eexists; reflexivity)).
Qed.

(** [insert_one] returns only for a dict, on a store that can be reached
    and accepts the write, and it has then stored the dict. *)
Lemma insert_one_returns (v : json) (w w' : World) (i : ident) :
  insert_one v w = (inr i, w') ->
  exists d, v = JObj d
            /\ reachable w = true
            /\ verdict w (documents w) (mkDocument i d) = Written
            /\ documents w' = documents w ++ [mkDocument i d].
Proof.
  unfold insert_one. destruct v as [| | | | | |d]; try discriminate.
  intros H. exists d. split; [reflexivity|]. revert H.
  destruct (dict_get "_id" d); simpl;
    destruct (reachable w) eqn:Hup; try discriminate;
    match goal with |- context [verdict w ?docs ?doc] =>
      destruct (verdict w docs doc) eqn:Hok end;
    try discriminate;
    intros H; injection H as <- <-; now repeat split.
Qed.

Section GatewayProperties.

Variable loads : string -> decoded.

(** A POST whose body [get_json] refuses: [data] raises the HTTP
    exception and does nothing else. *)
Lemma data_post_refused (r : Request) (w : World) :
  method r = "POST" ->
  is_json r = false \/ loads (get_data r) = Invalid ->
  data loads r w
  = (inl (if is_json r then BadRequest else UnsupportedMediaType), w).
Proof.
  intros Hm H. unfold data. rewrite Hm. simpl.
  unfold bind, get_json.
  destruct (is_json r); [|reflexivity].
  destruct H as [H|H]; [discriminate|]. now rewrite H.
Qed.

(** A POST whose body [get_json] returns: what [data] does is what the
    one call of [insert_one] on that value does. *)
Lemma data_post_decoded (r : Request) (w : World) (v : json) :
  method r = "POST" -> is_json r = true -> loads (get_data r) = Decoded v ->
  data loads r w
  = match insert_one v w with
    | (inr _, w') =>
        (inr (RvTuple (jsonify (JObj [("status", JStr "Data inserted")])) 201),
         w')
    | (inl e, w') => (inl e, w')
    end.
Proof.
  intros Hm Hj Hv. unfold data. rewrite Hm. simpl.
  unfold bind, get_json. rewrite Hj, Hv. unfold ret.
  destruct (insert_one v w) as [[e|i] w1]; reflexivity.
Qed.

Lemma call_view_post_decoded (r : Request) (w : World) (v : json) :
  method r = "POST" -> is_json r = true -> loads (get_data r) = Decoded v ->
  call_view (data loads) r w
  = match insert_one v w with
    | (inr _, w') => (inserted, w')
    | (inl e, w') => (handle_exception e, w')
    end.
Proof.
  intros Hm Hj Hv. unfold call_view, bind.
  rewrite (data_post_decoded r w v Hm Hj Hv).
  destruct (insert_one v w) as [[e|i] w1]; reflexivity.
Qed.

Lemma call_view_post_refused (r : Request) (w : World) :
  method r = "POST" ->
  is_json r = false \/ loads (get_data r) = Invalid ->
  call_view (data loads) r w
  = (handle_exception (if is_json r then BadRequest else UnsupportedMediaType),
     w).
Proof.
  intros Hm H. unfold call_view, bind.
  now rewrite (data_post_refused r w Hm H).
Qed.

Lemma data_get (r : Request) (w : World) :
  method r = "GET" ->
  data loads r w
  = if reachable w
    then (inr (RvTuple (jsonify (JArr (map without_id (documents w)))) 200),
          count_call w)
    else (inl unreachable, count_call w).
Proof.
  intros Hm. unfold data. rewrite Hm. simpl.
  unfold bind, find. simpl. destruct (reachable w); reflexivity.
Qed.

Lemma call_view_get (r : Request) (w : World) :
  method r = "GET" ->
  call_view (data loads) r w
  = (if reachable w
     then mkResponse 200 (BodyJson (JArr (map without_id (documents w))))
     else mkResponse 500 (BodyError 500),
     count_call w).
Proof.
  intros Hm. unfold call_view, bind. rewrite (data_get r w Hm).
  destruct (reachable w); reflexivity.
Qed.

Lemma call_view_post_object (r : Request) (w : World) (d : dict) :
  posts loads r d -> dict_get "_id" d = None -> reachable w = true ->
  verdict w (documents w) (mkDocument (ObjectId (oid_counter w)) d) = Written ->
  call_view (data loads) r w
  = (inserted,
     mkWorld (clock w) true
             (documents w ++ [mkDocument (ObjectId (oid_counter w)) d])
             (verdict w) (N.succ (oid_counter w)) (S (store_calls w))).
Proof.
  intros (Hm & Hj & Hv) Hid Hup Hok.
  rewrite (call_view_post_decoded r w (JObj d) Hm Hj Hv).
  now rewrite insert_one_written.
Qed.





(** C3.  A POST whose body [get_json] refuses, because the request does
    not announce JSON or because the decoder reports the data as invalid,
    is answered with a client error, 415 or 400 and never 201, before
    the collection is called: the world is left as it was.  When the
    decoder fails in another way the answer is 500, the world again left
    as it was. *)
Theorem C3_post_without_json_is_client_error (r : Request) (w : World) :
  method r = "POST" ->
  (is_json r = false \/ loads (get_data r) = Invalid ->
     data loads r w
     = (inl (if is_json r then BadRequest else UnsupportedMediaType), w)
     /\ call_view (data loads) r w
        = (if is_json r then mkResponse 400 (BodyError 400)
           else mkResponse 415 (BodyError 415), w)
     /\ 400 <= status (fst (call_view (data loads) r w)) < 500
     /\ status (fst (call_view (data loads) r w)) <> 201)
  /\ (forall error, is_json r = true -> loads (get_data r) = Failed error ->
        call_view (data loads) r w = (mkResponse 500 (BodyError 500), w)).
Proof.
  intros Hm. split.
  - intros H. rewrite (call_view_post_refused r w Hm H).
    rewrite (data_post_refused r w Hm H).
    destruct (is_json r); simpl; repeat split; lia.
  - intros error Hj Hf. unfold call_view, bind, data. rewrite Hm. simpl.
    unfold bind, get_json. now rewrite Hj, Hf.
Qed.

(** C4.  A POST that announces JSON and whose body decodes to an object
    without [_id], on a store that can be reached and accepts the write:
    the object is stored as one new document, as it was decoded and under
    the identifier the driver generates, after the documents the
    collection held, in one call of the collection, and the answer is 201
    with the confirmation.  No field of the object is looked at. *)
Theorem C4_post_json_object_is_inserted (r : Request) (w : World) (d : dict) :
  method r = "POST" -> is_json r = true ->
  loads (get_data r) = Decoded (JObj d) ->
  dict_get "_id" d = None ->
  reachable w = true ->
  verdict w (documents w) (mkDocument (ObjectId (oid_counter w)) d) = Written ->
  call_view (data loads) r w
  = (mkResponse 201 (BodyJson (JObj [("status", JStr "Data inserted")])),
     mkWorld (clock w) true
             (documents w ++ [mkDocument (ObjectId (oid_counter w)) d])
             (verdict w) (N.succ (oid_counter w)) (S (store_calls w))).
Proof.
  intros Hm Hj Hv Hid Hup Hok.
  now apply call_view_post_object.
Qed.



(** C7.  A GET while the store can be reached and holds no document: the
    view answers 200 with the empty list. *)
Theorem C7_get_data_on_empty_store (r : Request) (w : World) :
  method r = "GET" -> reachable w = true -> documents w = [] ->
  call_view (data loads) r w
  = (mkResponse 200 (BodyJson (JArr [])), count_call w).
Proof.
  intros Hm Hup Hempty. rewrite (call_view_get r w Hm), Hup, Hempty.
  reflexivity.
Qed.

(** C8.  When the call of the collection raises, the exception leaves
    the view as it is: the view holds no handler and makes no second
    call.  A GET while the store cannot be reached is answered 500 after
    one call.  A POST whose body [get_json] returns and whose
    [insert_one] raises is answered 500 after that one call, with the
    world as [insert_one] left it; while the store cannot be reached
    [insert_one] does raise, and stores nothing.  A POST whose body
    [get_json] refuses is answered with the client error before the
    collection is called, whether or not the store can be reached. *)
Theorem C8_store_failure_is_a_server_error (r : Request) (w : World) :
  (method r = "GET" -> reachable w = false ->
     data loads r w = (inl unreachable, count_call w)
     /\ call_view (data loads) r w
        = (mkResponse 500 (BodyError 500), count_call w))
  /\ (forall v e w',
        method r = "POST" -> is_json r = true ->
        loads (get_data r) = Decoded v ->
        insert_one v w = (inl e, w') ->
        data loads r w = (inl e, w')
        /\ call_view (data loads) r w = (mkResponse 500 (BodyError 500), w')
        /\ store_calls w' = S (store_calls w))
  /\ (forall v,
        method r = "POST" -> is_json r = true ->
        loads (get_data r) = Decoded v ->
        reachable w = false ->
        exists e,
          fst (insert_one v w) = inl e
          /\ fst (call_view (data loads) r w) = mkResponse 500 (BodyError 500)
          /\ documents (snd (call_view (data loads) r w)) = documents w
          /\ store_calls (snd (call_view (data loads) r w))
             = S (store_calls w))
  /\ (method r = "POST" ->
      is_json r = false \/ loads (get_data r) = Invalid ->
      call_view (data loads) r w
      = (if is_json r then mkResponse 400 (BodyError 400)
         else mkResponse 415 (BodyError 415), w)).
Proof.
  split; [|split; [|split]].
  - intros Hm Hdown. rewrite (call_view_get r w Hm), (data_get r w Hm), Hdown.
    now split.
  - intros v e w' Hm Hj Hv He.
    rewrite (call_view_post_decoded r w v Hm Hj Hv).
    rewrite (data_post_decoded r w v Hm Hj Hv). rewrite He.
    destruct (insert_one_raises v w w' e He) as (Hcode & Hcalls & _).
    unfold handle_exception. rewrite Hcode. now repeat split.
  - intros v Hm Hj Hv Hdown.
    destruct (insert_one_unreachable v w Hdown) as (e & He & Hdocs).
    exists e. split; [exact He|].
    rewrite (call_view_post_decoded r w v Hm Hj Hv).
    destruct (insert_one v w) as [[e'|i] w'] eqn:Hins; simpl in He;
      [|discriminate].
    destruct (insert_one_raises v w w' e' Hins) as (Hcode & Hcalls & _).
    unfold handle_exception. rewrite Hcode. simpl in *. now repeat split.
  - intros Hm H. rewrite (call_view_post_refused r w Hm H).
    now destruct (is_json r).
Qed.

(** C9.  The view [index] answers 200 with the welcome text followed by
    the reading of the clock, as [str] prints it, and leaves the world as
    it was; run at two different readings it gives two different texts.
    But no request reaches it: running the file raises at the decorators
    of [index], so no rule and no view is registered and a process that
    imports the file serves nothing. *)
Theorem C9_index_is_defined_but_never_served
    (self : string) (r : Request) (w : World) :
  call_view (fun _ => index) r w
  = (mkResponse 200
       (BodyText ("Welcome to the Flask app! The current time is: "
                  ++ str_datetime (clock w))), w)
  /\ (forall r' w',
        datetime_valid (clock w) -> datetime_valid (clock w') ->
        clock w <> clock w' ->
        body (fst (call_view (fun _ => index) r w))
        <> body (fst (call_view (fun _ => index) r' w')))
  /\ fst (exec_module self [] (app_py loads))
     = Some (NameError "cross_origin")
  /\ url_map (snd (exec_module self [] (app_py loads))) = []
  /\ view_of "index"
       (view_functions (snd (exec_module self [] (app_py loads)))) = None
  /\ serve (exec_module self [] (app_py loads)) r w = None.
Proof.
  split; [reflexivity|]. split; [|repeat split].
  intros r' w' Hv Hv' Hne H. apply Hne.
  apply BodyText_inj in H. apply append_inv_head in H.
  now apply str_datetime_inj.
Qed.

(** C10.  The view answers a POST with 201 only if the request announces
    JSON and its body decodes to an object.  When the request announces
    JSON and its body decodes to a value that is not an object,
    [insert_one] raises TypeError before anything is sent and the answer
    is 500, nothing stored.  When the request does not announce JSON the
    answer is 415, whatever the body, and the collection is not called. *)
Theorem C10_post_succeeds_only_for_objects (r : Request) (w : World) :
  method r = "POST" ->
  (status (fst (call_view (data loads) r w)) = 201 ->
     is_json r = true
     /\ exists d, loads (get_data r) = Decoded (JObj d))
  /\ (forall v, is_json r = true -> loads (get_data r) = Decoded v ->
        is_object v = false ->
        data loads r w = (inl TypeError, count_call w)
        /\ call_view (data loads) r w
           = (mkResponse 500 (BodyError 500), count_call w))
  /\ (is_json r = false ->
      call_view (data loads) r w = (mkResponse 415 (BodyError 415), w)).
Proof.
  intros Hm. split; [|split].
  - intros H201.
    destruct (is_json r) eqn:Hj.
    + split; [reflexivity|].
      destruct (loads (get_data r)) as [v| |error] eqn:Hv.
      * rewrite (call_view_post_decoded r w v Hm Hj Hv) in H201.
        destruct v as [| | | | | |d];
          try (simpl in H201; discriminate H201).
        now exists d.
      * rewrite (call_view_post_refused r w Hm (or_intror Hv)), Hj in H201.
        simpl in H201. discriminate H201.
      * unfold call_view, bind, data in H201. rewrite Hm in H201.
        simpl in H201. unfold bind, get_json in H201.
        rewrite Hj, Hv in H201. simpl in H201. discriminate H201.
    + rewrite (call_view_post_refused r w Hm (or_introl Hj)), Hj in H201.
      simpl in H201. discriminate H201.
  - intros v Hj Hv Hobj.
    rewrite (call_view_post_decoded r w v Hm Hj Hv).
    rewrite (data_post_decoded r w v Hm Hj Hv).
    destruct v; try discriminate Hobj; now split.
  - intros Hj. rewrite (call_view_post_refused r w Hm (or_introl Hj)), Hj.
    reflexivity.
Qed.

(** X6.  Running the view for a request calls the collection at most
    once, and a run without a call leaves the world as it was.  Whatever
    the request, the documents are afterwards the former ones, or the
    former ones followed by one more: the view removes and alters none. *)
Theorem X6_one_store_call_at_most (r : Request) (w : World) :
  (snd (call_view (data loads) r w) = w
   \/ store_calls (snd (call_view (data loads) r w)) = S (store_calls w))
  /\ (documents (snd (call_view (data loads) r w)) = documents w
      \/ exists doc,
           documents (snd (call_view (data loads) r w))
           = documents w ++ [doc]).
Proof.
  destruct (String.eqb_spec (method r) "POST") as [Hp|Hp].
  - destruct (is_json r) eqn:Hj.
    + destruct (loads (get_data r)) as [v| |error] eqn:Hv.
      * rewrite (call_view_post_decoded r w v Hp Hj Hv).
        destruct (insert_one_frame v w) as (H1 & H2 & H3 & H4 & H5).
        destruct (insert_one v w) as [[e|i] w']; simpl in *;
          repeat split; (assumption || now right).
      * rewrite (call_view_post_refused r w Hp (or_intror Hv)).
        simpl. repeat split; now left.
      * unfold call_view, bind, data. rewrite Hp. simpl.
        unfold bind, get_json. rewrite Hj, Hv. simpl.
        repeat split; now left.
    + rewrite (call_view_post_refused r w Hp (or_introl Hj)).
      simpl. repeat split; now left.
  - destruct (String.eqb_spec (method r) "GET") as [Hg|Hg].
    + rewrite (call_view_get r w Hg). simpl.
      repeat split; (now left) || (now right).
    + unfold call_view, bind, data.
      rewrite (eqb_false_of_neq _ _ Hp), (eqb_false_of_neq _ _ Hg).
      simpl. repeat split; now left.
Qed.

(** X11.  The view answers 201 only to a POST that announces JSON and
    whose body decodes to an object, on a store that can be reached and
    accepts the write; the object is then stored, after the documents the
    collection held. *)
Theorem X11_created_only_for_stored_objects (r : Request) (w : World) :
  status (fst (call_view (data loads) r w)) = 201 ->
  method r = "POST" /\ is_json r = true /\ reachable w = true
  /\ exists d i,
       loads (get_data r) = Decoded (JObj d)
       /\ verdict w (documents w) (mkDocument i d) = Written
       /\ documents (snd (call_view (data loads) r w))
          = documents w ++ [mkDocument i d].
Proof.
  intros H201.
  destruct (String.eqb_spec (method r) "POST") as [Hp|Hp].
  - split; [exact Hp|].
    destruct (is_json r) eqn:Hj.
    + destruct (loads (get_data r)) as [v| |error] eqn:Hv.
      * rewrite (call_view_post_decoded r w v Hp Hj Hv) in H201 |- *.
        destruct (insert_one v w) as [[e|i] w'] eqn:Hins.
        -- destruct (insert_one_raises v w w' e Hins) as (Hcode & _).
           unfold handle_exception in H201. rewrite Hcode in H201.
           discriminate H201.
        -- destruct (insert_one_returns v w w' i Hins)
             as (d & -> & Hup & Hok & Hdocs).
           split; [reflexivity|]. split; [exact Hup|].
           exists d, i. now repeat split.
      * rewrite (call_view_post_refused r w Hp (or_intror Hv)), Hj in H201.
        discriminate H201.
      * unfold call_view, bind, data in H201. rewrite Hp in H201.
        simpl in H201. unfold bind, get_json in H201.
        rewrite Hj, Hv in H201. discriminate H201.
    + rewrite (call_view_post_refused r w Hp (or_introl Hj)), Hj in H201.
      discriminate H201.
  - exfalso. destruct (String.eqb_spec (method r) "GET") as [Hg|Hg].
    + rewrite (call_view_get r w Hg) in H201.
      destruct (reachable w); discriminate H201.
    + unfold call_view, bind, data in H201.
      rewrite (eqb_false_of_neq _ _ Hp), (eqb_false_of_neq _ _ Hg) in H201.
      discriminate H201.
Qed.


(** C2.  The file uses the name [cross_origin] in a decorator of both
    view definitions, and no statement of the file binds that name.
    Running the file therefore raises NameError at the first of the two
    definitions, before any rule or view is registered; a process that
    imports the file has no application and runs no view, whatever the
    request. *)
Theorem C2_import_raises_NameError (self : string) :
  (forall decs name f, In (FunctionDef decs name f) (app_py loads) ->
     In (Call "cross_origin") decs)
  /\ mem "cross_origin" (flat_map binds (app_py loads)) = false
  /\ bound "cross_origin" (mkModule module_attributes [] []) = false
  /\ exec_module self [] (app_py loads)
     = (Some (NameError "cross_origin"),
        mkModule ["collection"; "db"; "client"; "mongodb_uri"; "app"; "os";
                  "datetime"; "MongoClient"; "jsonify"; "request"; "Flask";
                  "__name__"; "__doc__"; "__package__"; "__loader__";
                  "__spec__"; "__file__"; "__builtins__"] [] [])
  /\ (forall r w, serve (exec_module self [] (app_py loads)) r w = None).
Proof.
  split.
  { intros decs name f H. unfold app_py in H. simpl in H.
    repeat (destruct H as [H|H]; [try discriminate H|]);
      try contradiction;
      injection H as <- _ _; simpl; tauto. }
  repeat split.
Qed.

End GatewayProperties.

(** ** The client's configuration *)

Lemma environ_get_setenv_other (k k' v : string) (env : environ) :
  k <> k' -> environ_get k (setenv k' v env) = environ_get k env.
Proof.
  intros Hne. unfold setenv. simpl.
  rewrite (eqb_false_of_neq _ _ Hne).
  induction env as [|[k0 v0] env IH]; simpl; [reflexivity|].
  destruct (String.eqb_spec k' k0) as [->|Hk]; simpl.
  - now rewrite (eqb_false_of_neq _ _ Hne).
  - now rewrite IH.
Qed.

Lemma environ_get_unsetenv_other (k k' : string) (env : environ) :
  k <> k' -> environ_get k (unsetenv k' env) = environ_get k env.
Proof.
  intros Hne. unfold unsetenv.
  induction env as [|[k0 v0] env IH]; simpl; [reflexivity|].
  destruct (String.eqb_spec k' k0) as [->|Hk]; simpl.
  - now rewrite (eqb_false_of_neq _ _ Hne).
  - now rewrite IH.
Qed.

Lemma environ_get_unsetenv_same (k : string) (env : environ) :
  environ_get k (unsetenv k env) = None.
Proof.
  unfold unsetenv. induction env as [|[k0 v0] env IH]; simpl; [reflexivity|].
  destruct (String.eqb k k0) eqn:E; simpl; [exact IH|].
  now rewrite E.
Qed.

(** X13.  The client is configured by the three variables MONGODB_URI,
    MONGODB_USER and MONGODB_PASS and by nothing else in the environment:
    setting or removing any other variable leaves the configuration as it
    is.  The connection string is the value of MONGODB_URI whenever that
    variable is set, the empty string included, and the local default
    only when it is not set; a credential is absent when its variable is
    not set. *)
Theorem X13_client_configuration (k v uri : string) (env : environ) :
  k <> "MONGODB_URI" -> k <> "MONGODB_USER" -> k <> "MONGODB_PASS" ->
  client (setenv k v env) = client env
  /\ client (unsetenv k env) = client env
  /\ host (client (setenv "MONGODB_URI" uri env)) = uri
  /\ host (client (unsetenv "MONGODB_URI" env)) = "mongodb://localhost:27017/"
  /\ username (client (unsetenv "MONGODB_USER" env)) = None
  /\ password (client (unsetenv "MONGODB_PASS" env)) = None.
Proof.
  intros H1 H2 H3. unfold client, mongodb_uri, environ_get_default.
  rewrite !environ_get_setenv_other, !environ_get_unsetenv_other by congruence.
  cbn [host username password].
  rewrite !environ_get_unsetenv_same.
  repeat split.
Qed.

(** ** Concrete runs *)

Import Sample.

Example loads_name_a : SimpleJson.loads name_a_text = Decoded (JObj name_a).
Proof. reflexivity. Qed.

Example loads_array :
  SimpleJson.loads "[1, 2]" = Decoded (JArr [JInt 1; JInt 2]).
Proof. reflexivity. Qed.

Example loads_not_json : SimpleJson.loads "{bad" = Invalid.
Proof. reflexivity. Qed.

Example loads_empty : SimpleJson.loads EmptyString = Invalid.
Proof. reflexivity. Qed.

Example str_datetime_noon : str_datetime noon = "2024-03-09 12:00:00".
Proof. reflexivity. Qed.

Example str_datetime_later :
  str_datetime later = "2024-03-09 12:00:00.250000".
Proof. reflexivity. Qed.




Lemma C3_witness :
  call_view (data SimpleJson.loads) (post_json "{bad") stocked_world
  = (mkResponse 400 (BodyError 400), stocked_world)
  /\ call_view (data SimpleJson.loads) post_nothing stocked_world
     = (mkResponse 415 (BodyError 415), stocked_world).
Proof.
  split.
  - apply (proj1 (C3_post_without_json_is_client_error
                    SimpleJson.loads (post_json "{bad") stocked_world
                    eq_refl)).
    right. reflexivity.
  - apply (proj1 (C3_post_without_json_is_client_error
                    SimpleJson.loads post_nothing stocked_world eq_refl)).
    left. reflexivity.
Defined.

(** A body that is not valid JSON, for JSON has no NaN, and that the
    decoder accepts all the same: the answer is 201 when the body is an
    object, 500 when it is not. *)
Lemma C3_counterexample :
  SimpleJson.loads ("{" ++ SimpleJson.q "x" ++ ": NaN}")
  = Decoded (JObj [("x", JFloat SimpleJson.nan)])
  /\ call_view (data SimpleJson.loads) (post_json ("{" ++ SimpleJson.q "x" ++ ": NaN}"))
               empty_world
     = (inserted,
        mkWorld noon true
                [mkDocument (ObjectId 0) [("x", JFloat SimpleJson.nan)]]
                unique_int_ids 1 1)
  /\ SimpleJson.loads "NaN" = Decoded (JFloat SimpleJson.nan)
  /\ call_view (data SimpleJson.loads) (post_json "NaN") empty_world
     = (mkResponse 500 (BodyError 500), count_call empty_world).
Proof. repeat split. Qed.

Lemma C4_witness :
  call_view (data SimpleJson.loads) (post_json name_a_text) stocked_world
  = (mkResponse 201 (BodyJson (JObj [("status", JStr "Data inserted")])),
     mkWorld noon true
             [mkDocument (ObjectId 0) name_a;
              mkDocument (GivenId (JInt 1)) (with_id "b");
              mkDocument (ObjectId 1) name_a]
             unique_int_ids 2 3).
Proof.
  apply (C4_post_json_object_is_inserted
           SimpleJson.loads (post_json name_a_text) stocked_world name_a
           eq_refl eq_refl eq_refl eq_refl eq_refl eq_refl).
Defined.

(** A body that is valid JSON and not an object is not inserted, and an
    object that the store refuses is not inserted either. *)
Lemma C4_counterexample :
  SimpleJson.loads "[1]" = Decoded (JArr [JInt 1])
  /\ call_view (data SimpleJson.loads) (post_json "[1]") empty_world
     = (mkResponse 500 (BodyError 500), count_call empty_world)
  /\ SimpleJson.loads (with_id_text "c") = Decoded (JObj (with_id "c"))
  /\ call_view (data SimpleJson.loads) (post_json (with_id_text "c"))
               stocked_world
     = (mkResponse 500 (BodyError 500), count_call stocked_world).
Proof. repeat split. Qed.





Lemma C7_witness :
  call_view (data SimpleJson.loads) (get "/data") empty_world
  = (mkResponse 200 (BodyJson (JArr [])), count_call empty_world).
Proof.
  apply (C7_get_data_on_empty_store
           SimpleJson.loads (get "/data") empty_world
           eq_refl eq_refl eq_refl).
Defined.

(** A store that holds no document and cannot be reached. *)
Lemma C7_counterexample :
  documents down_world = []
  /\ call_view (data SimpleJson.loads) (get "/data") down_world
     = (mkResponse 500 (BodyError 500), count_call down_world).
Proof. split; reflexivity. Qed.

Lemma C8_witness :
  call_view (data SimpleJson.loads) (get "/data") down_world
  = (mkResponse 500 (BodyError 500), count_call down_world)
  /\ call_view (data SimpleJson.loads) (post_json (with_id_text "c"))
               stocked_world
     = (mkResponse 500 (BodyError 500), count_call stocked_world)
  /\ (exists e,
        fst (insert_one (JObj name_a) down_world) = inl e
        /\ fst (call_view (data SimpleJson.loads) (post_json name_a_text)
                          down_world)
           = mkResponse 500 (BodyError 500)
        /\ documents (snd (call_view (data SimpleJson.loads)
                                     (post_json name_a_text) down_world))
           = documents down_world
        /\ store_calls (snd (call_view (data SimpleJson.loads)
                                       (post_json name_a_text) down_world))
           = S (store_calls down_world))
  /\ call_view (data SimpleJson.loads) (post_json "{bad") down_world
     = (mkResponse 400 (BodyError 400), down_world).
Proof.
  split; [|split; [|split]].
  - apply (proj1 (C8_store_failure_is_a_server_error
                    SimpleJson.loads (get "/data") down_world)
                 eq_refl eq_refl).
  - apply (proj1 (proj2 (C8_store_failure_is_a_server_error
                           SimpleJson.loads (post_json (with_id_text "c"))
                           stocked_world))
                 (JObj (with_id "c")) (OtherError "DuplicateKeyError")
                 (count_call stocked_world)
                 eq_refl eq_refl eq_refl eq_refl).
  - apply (proj1 (proj2 (proj2 (C8_store_failure_is_a_server_error
                                  SimpleJson.loads (post_json name_a_text)
                                  down_world)))
                 (JObj name_a) eq_refl eq_refl eq_refl eq_refl).
  - apply (proj2 (proj2 (proj2 (C8_store_failure_is_a_server_error
                                  SimpleJson.loads (post_json "{bad")
                                  down_world)))
                 eq_refl (or_intror eq_refl)).
Defined.

(** A POST made while the store cannot be reached and whose body is not
    JSON: the answer is the client error, and the collection is not
    called. *)
Lemma C8_counterexample :
  reachable down_world = false
  /\ SimpleJson.loads "{bad" = Invalid
  /\ call_view (data SimpleJson.loads) (post_json "{bad") down_world
     = (mkResponse 400 (BodyError 400), down_world)
  /\ call_view (data SimpleJson.loads) post_nothing down_world
     = (mkResponse 415 (BodyError 415), down_world).
Proof. repeat split. Qed.

Lemma C9_witness :
  body (fst (call_view (fun _ => index) (get "/") empty_world))
  <> body (fst (call_view (fun _ => index) (get "/")
                          later_world)).
Proof.
  apply (proj1 (proj2 (C9_index_is_defined_but_never_served
                         SimpleJson.loads "__main__" (get "/") empty_world))
               (get "/") later_world).
  - unfold datetime_valid. simpl. lia.
  - unfold datetime_valid. simpl. lia.
  - discriminate.
Defined.

Lemma C10_witness :
  call_view (data SimpleJson.loads) (post_json "[1, 2]") stocked_world
  = (mkResponse 500 (BodyError 500), count_call stocked_world)
  /\ call_view (data SimpleJson.loads)
               (mkRequest "POST" "/data" "text/plain" "[1, 2]") stocked_world
     = (mkResponse 415 (BodyError 415), stocked_world).
Proof.
  split.
  - apply (proj1 (proj2 (C10_post_succeeds_only_for_objects
                           SimpleJson.loads (post_json "[1, 2]")
                           stocked_world eq_refl))
                 (JArr [JInt 1; JInt 2]) eq_refl eq_refl eq_refl).
  - apply (proj2 (proj2 (C10_post_succeeds_only_for_objects
                           SimpleJson.loads
                           (mkRequest "POST" "/data" "text/plain" "[1, 2]")
                           stocked_world eq_refl))
                 eq_refl).
Defined.

(** A body that is valid JSON and not an object, in a request that does
    not announce JSON: the answer is a client error. *)
Lemma C10_counterexample :
  SimpleJson.loads "[1]" = Decoded (JArr [JInt 1])
  /\ is_json (mkRequest "POST" "/data" "text/plain" "[1]") = false
  /\ call_view (data SimpleJson.loads)
               (mkRequest "POST" "/data" "text/plain" "[1]") empty_world
     = (mkResponse 415 (BodyError 415), empty_world)
  /\ call_view (data SimpleJson.loads)
               (mkRequest "POST" "/data" EmptyString "null") empty_world
     = (mkResponse 415 (BodyError 415), empty_world).
Proof. repeat split. Qed.


Lemma X11_witness :
  reachable stocked_world = true
  /\ exists d i,
       SimpleJson.loads name_a_text = Decoded (JObj d)
       /\ verdict stocked_world (documents stocked_world) (mkDocument i d)
          = Written
       /\ documents (snd (call_view (data SimpleJson.loads)
                                    (post_json name_a_text) stocked_world))
          = documents stocked_world ++ [mkDocument i d].
Proof.
  apply (proj2 (proj2 (X11_created_only_for_stored_objects
                         SimpleJson.loads (post_json name_a_text)
                         stocked_world eq_refl))).
Defined.

Lemma X13_witness :
  client (setenv "HOME" "/root" [("MONGODB_URI", "mongodb://db:27017/")])
  = mkMongoClient "mongodb://db:27017/" None None.
Proof.
  apply (X13_client_configuration "HOME" "/root" EmptyString
           [("MONGODB_URI", "mongodb://db:27017/")]); discriminate.
Defined.
